(** * The declared shapes of src/react/types/types.ts

    The source file holds type declarations only: interfaces, type
    aliases, tuple types and function signatures, built with the
    type-level operators [extends], [&], [|], [Pick] and [Omit].  The
    development embeds every declaration as a Rocq definition over a
    small language of TypeScript type expressions.  A generic
    declaration is a Rocq function of its type arguments, an object type
    is a finite map from member names to members, and the type-level
    operators are evaluated by [members].  The default type arguments
    of the source ([TData = any], [TVariables = OperationVariables]) are
    instances: what is proved here holds for all type arguments. *)

From stdpp Require Import gmap strings list fin_maps.

Set Warnings "-register-all".
Open Scope string_scope.

(** ** Type expressions *)

(** A member written [k: T] is [Required], [k?: T] is [Optional].  A
    member picked out of a type that is declared in another file keeps
    the modifier it has there ([Pick] is homomorphic): [AsDeclared]. *)
Inductive presence : Set := Required | Optional | AsDeclared.

Record member_ (T : Type) : Type := Member {
  m_presence : presence;
  m_type : T
}.
Arguments Member {T} _ _.
Arguments m_presence {T} _.
Arguments m_type {T} _.

(** A parameter [x: T], [x?: T] or [...x: T]. *)
Inductive param_kind : Set := Positional | OptionalParam | RestParam.

Record param_ (T : Type) : Type := Param {
  p_name : string;
  p_kind : param_kind;
  p_type : T
}.
Arguments Param {T} _ _ _.
Arguments p_name {T} _.
Arguments p_kind {T} _.
Arguments p_type {T} _.

(** A type parameter of a generic signature: [<K>] or [<K extends B>]. *)
Record tparam_ (T : Type) : Type := TParam {
  tp_name : string;
  tp_bound : option T
}.
Arguments TParam {T} _ _.
Arguments tp_name {T} _.
Arguments tp_bound {T} _.

Inductive ty : Type :=
| TAny                                     (* any *)
| TVoid                                    (* void *)
| TUndefined                               (* undefined *)
| TNull                                    (* null *)
| TBoolean                                 (* boolean *)
| TNumber                                  (* number *)
| TString                                  (* string *)
| TObjectKw                                (* object *)
| TVar (x : string)                        (* a type parameter of a signature *)
| TRef (name : string) (args : list ty)    (* a named type, N<A1, ..., An> *)
| TArray (elt : ty)                        (* T[] and Array<T> *)
| TTuple (elts : list ty)                  (* [T1, ..., Tn] *)
| TUnion (a b : ty)                        (* A | B *)
| TInter (a b : ty)                        (* A & B *)
| TFun (tps : list (tparam_ ty)) (ps : list (param_ ty)) (ret : ty)
                                           (* <tps>(ps) => ret *)
| TObj (ms : gmap string (member_ ty))     (* { k: T; k?: T; ... } *)
| TExtends (base : ty) (own : gmap string (member_ ty))
                                           (* interface _ extends base { own } *)
| TPick (src : ty) (ks : list string)      (* Pick<src, 'k1' | ... | 'kn'> *)
| TOmit (src : ty) (ks : list string)      (* Omit<src, 'k1' | ... | 'kn'> *)
| TKeyof (t : ty)                          (* keyof T *)
| TIndex (t : ty) (k : string).            (* T['k'] *)

Abbreviation member := (member_ ty).
Abbreviation param := (param_ ty).
Abbreviation tparam := (tparam_ ty).

Notation "k ':!' t" := (k, Member Required t) (at level 60, no associativity).
Notation "k ':?' t" := (k, Member Optional t) (at level 60, no associativity).

(** The body of an interface or of an object type literal. *)
Definition body (ms : list (string * member)) : gmap string member :=
  list_to_map ms.

(** ** Evaluation of the type-level operators *)

(** The member both sides of an intersection declare is required as
    soon as one side requires it, and has the intersection of the two
    types. *)
Definition presence_meet (p q : presence) : presence :=
  match p, q with
  | Required, _ | _, Required => Required
  | AsDeclared, _ | _, AsDeclared => AsDeclared
  | Optional, Optional => Optional
  end.

Definition member_meet (m1 m2 : member) : option member :=
  Some (Member (presence_meet (m_presence m1) (m_presence m2))
               (TInter (m_type m1) (m_type m2))).

(** [Pick<T, K extends keyof T>] is [{ [P in K]: T[P] }]: over a type
    declared elsewhere it has exactly the keys [K], each with the
    indexed access type. *)
Definition picked (src : ty) (ks : list string) : gmap string member :=
  list_to_map ((λ k, (k, Member AsDeclared (TIndex src k))) <$> ks).

(** The members of an object type, where the expression determines all
    of them.  A named type of another file, a type variable or a
    primitive has no members known here, and then neither has an
    intersection or an extension it is part of: what is known of the
    other part does not make up the whole.  Statements about such a
    type are made under the hypothesis that its members are known. *)
Fixpoint members (t : ty) : option (gmap string member) :=
  match t with
  | TObj ms => Some ms
  | TExtends base own => ms ← members base; Some (own ∪ ms)
  | TInter a b =>
      ma ← members a; mb ← members b; Some (union_with member_meet ma mb)
  | TPick src ks =>
      match src with
      | TRef _ _ => Some (picked src ks)
      | _ => ms ← members src; Some (filter (λ kv, kv.1 ∈ ks) ms)
      end
  | TOmit src ks => ms ← members src; Some (filter (λ kv, kv.1 ∉ ks) ms)
  | _ => None
  end.

(** The member declared under key [k]. *)
Definition member_at (t : ty) (k : string) : option member :=
  ms ← members t; ms !! k.

(** The set of keys. *)
Definition keys (t : ty) : option (gset string) :=
  dom <$> members t.

(** The alternatives of a union, left to right. *)
Fixpoint alternatives (t : ty) : list ty :=
  match t with
  | TUnion a b => alternatives a ++ alternatives b
  | _ => [t]
  end.

(** The parts of an intersection, left to right.  For an intersection
    of function types these are its call signatures. *)
Fixpoint parts (t : ty) : list ty :=
  match t with
  | TInter a b => parts a ++ parts b
  | _ => [t]
  end.

(** A fragment of assignability: every type is assignable to itself, to
    [any], and to a union one of whose alternatives it is assignable
    to. *)
Inductive assignable : ty → ty → Prop :=
| assignable_refl s : assignable s s
| assignable_any s : assignable s TAny
| assignable_union_l s a b : assignable s a → assignable s (TUnion a b)
| assignable_union_r s a b : assignable s b → assignable s (TUnion a b).

(** A parameter list accepts a list of argument types: positional
    parameters take one argument each, an optional parameter may be left
    out together with all that follow it, a rest parameter of type
    [T[]] takes all remaining arguments. *)
Fixpoint accepts (ps : list param) (args : list ty) : Prop :=
  match ps with
  | [] => args = []
  | p :: ps' =>
      match p_kind p with
      | Positional =>
          match args with
          | a :: args' => assignable a (p_type p) ∧ accepts ps' args'
          | [] => False
          end
      | OptionalParam =>
          match args with
          | a :: args' => assignable a (p_type p) ∧ accepts ps' args'
          | [] => accepts ps' []
          end
      | RestParam =>
          match p_type p with
          | TArray elt => Forall (λ a, assignable a elt) args
          | _ => False
          end
      end
  end.

(** A call of a value of the function type [f], which is not generic,
    with arguments of types [args] type-checks and has type [ret]. *)
Definition callable (f : ty) (args : list ty) (ret : ty) : Prop :=
  ∃ ps, f = TFun [] ps ret ∧ accepts ps args.

(** The signature of a function type. *)
Definition fun_tparams (f : ty) : option (list tparam) :=
  match f with TFun tps _ _ => Some tps | _ => None end.

Definition fun_params (f : ty) : option (list param) :=
  match f with TFun _ ps _ => Some ps | _ => None end.

Definition fun_ret (f : ty) : option ty :=
  match f with TFun _ _ ret => Some ret | _ => None end.

(** The two components of a pair type [[trigger, snapshot]]; a tuple
    type of any other length has neither. *)
Definition trigger_of (t : ty) : option ty :=
  match t with TTuple [f; _] => Some f | _ => None end.

Definition snapshot_of (t : ty) : option ty :=
  match t with TTuple [_; r] => Some r | _ => None end.

(** [k] is an optional member of the bundle [t]. *)
Definition is_option (t : ty) (k : string) : bool :=
  match member_at t k with
  | Some (Member Optional _) => true
  | _ => false
  end.

(** [t] has a member [k]. *)
Definition has (t : ty) (k : string) : bool :=
  if member_at t k is Some _ then true else false.

(** [t] has no member [k]. *)
Definition lacks (t : ty) (k : string) : bool :=
  match members t with
  | Some ms => if ms !! k is None then true else false
  | None => false
  end.

(** ** The imports of types.ts

    These types are declared in other files; here they are names. *)

Definition ReactNode : ty := TRef "ReactNode" [].
Definition DocumentNode : ty := TRef "DocumentNode" [].
Definition GraphQLError : ty := TRef "GraphQLError" [].
Definition Observable (T : ty) : ty := TRef "Observable" [T].
Definition FetchResult (T : ty) : ty := TRef "FetchResult" [T].
Definition ApolloClient (T : ty) : ty := TRef "ApolloClient" [T].
Definition ApolloQueryResult (T : ty) : ty := TRef "ApolloQueryResult" [T].
Definition PureQueryOptions : ty := TRef "PureQueryOptions" [].
Definition OperationVariables : ty := TRef "OperationVariables" [].
Definition ApolloError : ty := TRef "ApolloError" [].
Definition FetchPolicy : ty := TRef "FetchPolicy" [].
Definition WatchQueryFetchPolicy : ty := TRef "WatchQueryFetchPolicy" [].
Definition ErrorPolicy : ty := TRef "ErrorPolicy" [].
Definition FetchMoreQueryOptions (TVariables K : ty) : ty :=
  TRef "FetchMoreQueryOptions" [TVariables; K].
Definition MutationUpdaterFn (T : ty) : ty := TRef "MutationUpdaterFn" [T].
Definition FetchMoreOptions (TData TVariables : ty) : ty :=
  TRef "FetchMoreOptions" [TData; TVariables].
Definition ObservableQuery (TData TVariables : ty) : ty :=
  TRef "ObservableQuery" [TData; TVariables].
Definition NetworkStatus : ty := TRef "NetworkStatus" [].

(** Types of the language's own library and of ambient namespaces. *)
Definition Promise (T : ty) : ty := TRef "Promise" [T].
Definition Record_ (K V : ty) : ty := TRef "Record" [K; V].
Definition JSX_Element : ty := TRef "JSX.Element" [].
Definition ZenObservable_Subscription : ty :=
  TRef "ZenObservable.Subscription" [].

(** ** Common types *)

Definition Context : ty := Record_ TString TAny.

Definition ExecutionResult (T : ty) : ty :=
  TObj (body [
    "data" :? T;
    "extensions" :? Record_ TString TAny;
    "errors" :? TArray GraphQLError
  ]).


(** ** Query types *)

Definition BaseQueryOptions (TVariables : ty) : ty :=
  TObj (body [
    "ssr" :? TBoolean;
    "variables" :? TVariables;
    "fetchPolicy" :? WatchQueryFetchPolicy;
    "errorPolicy" :? ErrorPolicy;
    "pollInterval" :? TNumber;
    "client" :? ApolloClient TAny;
    "notifyOnNetworkStatusChange" :? TBoolean;
    "context" :? Context;
    "partialRefetch" :? TBoolean;
    "returnPartialData" :? TBoolean
  ]).

Definition QueryFunctionOptions (TData TVariables : ty) : ty :=
  TExtends (BaseQueryOptions TVariables) (body [
    "displayName" :? TString;
    "skip" :? TBoolean;
    "onCompleted" :? TFun [] [Param "data" Positional TData] TVoid;
    "onError" :? TFun [] [Param "error" Positional ApolloError] TVoid
  ]).

(** The first call signature of [fetchMore]. *)
Definition fetchMore_same (TData TVariables : ty) : ty :=
  TFun [TParam "K" (Some (TKeyof TVariables))]
       [Param "fetchMoreOptions" Positional
          (TInter (FetchMoreQueryOptions TVariables (TVar "K"))
                  (FetchMoreOptions TData TVariables))]
       (Promise (ApolloQueryResult TData)).

(** The second call signature of [fetchMore]; it does not mention the
    type arguments of the enclosing declaration. *)
Definition fetchMore_cross : ty :=
  TFun [TParam "TData2" None; TParam "TVariables2" None;
        TParam "K" (Some (TKeyof (TVar "TVariables2")))]
       [Param "fetchMoreOptions" Positional
          (TInter
             (TInter (TObj (body [ "query" :? DocumentNode ]))
                     (FetchMoreQueryOptions (TVar "TVariables2") (TVar "K")))
             (FetchMoreOptions (TVar "TData2") (TVar "TVariables2")))]
       (Promise (ApolloQueryResult (TVar "TData2"))).

Definition ObservableQueryFields (TData TVariables : ty) : ty :=
  TInter
    (TPick (ObservableQuery TData TVariables)
       ["startPolling"; "stopPolling"; "subscribeToMore"; "updateQuery";
        "refetch"; "variables"])
    (TObj (body [
       "fetchMore" :! TInter (fetchMore_same TData TVariables) fetchMore_cross
     ])).

Definition QueryResult (TData TVariables : ty) : ty :=
  TExtends (ObservableQueryFields TData TVariables) (body [
    "client" :! ApolloClient TAny;
    "data" :! TUnion TData TUndefined;
    "error" :? ApolloError;
    "loading" :! TBoolean;
    "networkStatus" :! NetworkStatus;
    "called" :! TBoolean
  ]).

Definition QueryOptions (TData TVariables : ty) : ty :=
  TExtends (QueryFunctionOptions TData TVariables) (body [
    "children" :?
      TFun [] [Param "result" Positional (QueryResult TData TVariables)]
           ReactNode;
    "query" :! DocumentNode
  ]).

Definition QueryHookOptions (TData TVariables : ty) : ty :=
  TExtends (QueryFunctionOptions TData TVariables) (body [
    "query" :? DocumentNode
  ]).

Definition LazyQueryHookOptions (TData TVariables : ty) : ty :=
  TExtends (TOmit (QueryFunctionOptions TData TVariables) ["skip"]) (body [
    "query" :? DocumentNode
  ]).

Definition QueryPreviousData (TData TVariables : ty) : ty :=
  TObj (body [
    "client" :? ApolloClient TObjectKw;
    "query" :? DocumentNode;
    "observableQueryOptions" :? TObj (body []);
    "result" :? TUnion (ApolloQueryResult TData) TNull;
    "loading" :? TBoolean;
    "options" :? QueryOptions TData TVariables;
    "error" :? ApolloError
  ]).

Definition QueryCurrentObservable (TData TVariables : ty) : ty :=
  TObj (body [
    "query" :? TUnion (ObservableQuery TData TVariables) TNull;
    "subscription" :? ZenObservable_Subscription
  ]).

Definition QueryLazyOptions (TVariables : ty) : ty :=
  TObj (body [
    "variables" :? TVariables;
    "context" :? Context
  ]).

Definition QueryTuple (TData TVariables : ty) : ty :=
  TTuple [
    TFun [] [Param "options" OptionalParam (QueryLazyOptions TVariables)] TVoid;
    QueryResult TData TVariables
  ].

(** ** Mutation types *)

Definition RefetchQueriesFunction : ty :=
  TFun [] [Param "args" RestParam (TArray TAny)]
       (TArray (TUnion TString PureQueryOptions)).

Definition BaseMutationOptions (TData TVariables : ty) : ty :=
  TObj (body [
    "variables" :? TVariables;
    "optimisticResponse" :?
      TUnion TData (TFun [] [Param "vars" Positional TVariables] TData);
    "refetchQueries" :?
      TUnion (TArray (TUnion TString PureQueryOptions)) RefetchQueriesFunction;
    "awaitRefetchQueries" :? TBoolean;
    "errorPolicy" :? ErrorPolicy;
    "update" :? MutationUpdaterFn TData;
    "client" :? ApolloClient TObjectKw;
    "notifyOnNetworkStatusChange" :? TBoolean;
    "context" :? Context;
    "onCompleted" :? TFun [] [Param "data" Positional TData] TVoid;
    "onError" :? TFun [] [Param "error" Positional ApolloError] TVoid;
    "fetchPolicy" :? WatchQueryFetchPolicy;
    "ignoreResults" :? TBoolean
  ]).

Definition MutationFunctionOptions (TData TVariables : ty) : ty :=
  TObj (body [
    "variables" :? TVariables;
    "optimisticResponse" :?
      TUnion TData
        (TFun [] [Param "vars" Positional (TUnion TVariables (TObj (body [])))]
              TData);
    "refetchQueries" :?
      TUnion (TArray (TUnion TString PureQueryOptions)) RefetchQueriesFunction;
    "awaitRefetchQueries" :? TBoolean;
    "update" :? MutationUpdaterFn TData;
    "context" :? Context;
    "fetchPolicy" :? WatchQueryFetchPolicy
  ]).

Definition MutationResult (TData : ty) : ty :=
  TObj (body [
    "data" :? TData;
    "error" :? ApolloError;
    "loading" :! TBoolean;
    "called" :! TBoolean;
    "client" :? ApolloClient TObjectKw
  ]).

Definition MutationFunction (TData TVariables : ty) : ty :=
  TFun []
       [Param "options" OptionalParam (MutationFunctionOptions TData TVariables)]
       (Promise (FetchResult TData)).

Definition MutationHookOptions (TData TVariables : ty) : ty :=
  TExtends (BaseMutationOptions TData TVariables) (body [
    "mutation" :? DocumentNode
  ]).

Definition MutationOptions (TData TVariables : ty) : ty :=
  TExtends (BaseMutationOptions TData TVariables) (body [
    "mutation" :! DocumentNode
  ]).

Definition MutationTuple (TData TVariables : ty) : ty :=
  TTuple [
    TFun []
         [Param "options" OptionalParam
            (MutationFunctionOptions TData TVariables)]
         (Promise (ExecutionResult TData));
    MutationResult TData
  ].

(** ** Subscription types *)

Definition SubscriptionResult (TData : ty) : ty :=
  TObj (body [
    "loading" :! TBoolean;
    "data" :? TData;
    "error" :? ApolloError
  ]).

Definition OnSubscriptionDataOptions (TData : ty) : ty :=
  TObj (body [
    "client" :! ApolloClient TObjectKw;
    "subscriptionData" :! SubscriptionResult TData
  ]).

(** The parameter of the [shouldResubscribe] predicate is the interface
    being declared: the reference is by name. *)
Definition BaseSubscriptionOptions (TData TVariables : ty) : ty :=
  TObj (body [
    "variables" :? TVariables;
    "fetchPolicy" :? FetchPolicy;
    "shouldResubscribe" :?
      TUnion TBoolean
        (TFun []
           [Param "options" Positional
              (TRef "BaseSubscriptionOptions" [TData; TVariables])]
           TBoolean);
    "client" :? ApolloClient TObjectKw;
    "skip" :? TBoolean;
    "onSubscriptionData" :?
      TFun [] [Param "options" Positional (OnSubscriptionDataOptions TData)]
           TAny;
    "onSubscriptionComplete" :? TFun [] [] TVoid
  ]).

Definition SubscriptionHookOptions (TData TVariables : ty) : ty :=
  TExtends (BaseSubscriptionOptions TData TVariables) (body [
    "subscription" :? DocumentNode
  ]).

Definition SubscriptionOptions (TData TVariables : ty) : ty :=
  TExtends (BaseSubscriptionOptions TData TVariables) (body [
    "subscription" :! DocumentNode;
    "children" :?
      TUnion TNull
        (TFun [] [Param "result" Positional (SubscriptionResult TData)]
              (TUnion JSX_Element TNull))
  ]).

Definition SubscriptionCurrentObservable : ty :=
  TObj (body [
    "query" :? Observable TAny;
    "subscription" :? ZenObservable_Subscription
  ]).


(** ** The configuration keys and controls the bindings are described by *)

(** The keys a query binding is configured with. *)
Definition query_keys : list string :=
  ["fetchPolicy"; "errorPolicy"; "pollInterval"; "skip";
   "notifyOnNetworkStatusChange"; "returnPartialData"; "onCompleted";
   "onError"].

(** The keys a mutation binding is configured with. *)
Definition mutation_keys : list string :=
  ["optimisticResponse"; "refetchQueries"; "awaitRefetchQueries"; "update";
   "ignoreResults"; "errorPolicy"; "onCompleted"; "onError"].

(** The keys a subscription binding is configured with. *)
Definition subscription_keys : list string :=
  ["skip"; "shouldResubscribe"; "onSubscriptionData";
   "onSubscriptionComplete"].

(** The recognized configuration keys, all bindings together. *)
Definition configuration_keys : list string :=
  ["fetchPolicy"; "errorPolicy"; "pollInterval"; "skip";
   "notifyOnNetworkStatusChange"; "returnPartialData"; "optimisticResponse";
   "refetchQueries"; "awaitRefetchQueries"; "update"; "ignoreResults";
   "onCompleted"; "onError"; "onSubscriptionData"; "onSubscriptionComplete";
   "shouldResubscribe"].

(** The imperative controls of a query binding. *)
Definition imperative_controls : list string :=
  ["refetch"; "fetchMore"; "updateQuery"; "startPolling"; "stopPolling";
   "subscribeToMore"].

(** ** Required members *)

#[global] Instance presence_eq_dec : EqDecision presence.
Proof. solve_decision. Defined.

(** The keys an object of type [t] has to have. *)
Definition required_keys (t : ty) : option (gset string) :=
  (λ ms, dom (filter (λ kv, m_presence kv.2 = Required) ms)) <$> members t.

(** The members of [t] include those of [mb], each with its modifier and
    its type. *)
Definition includes (mb : gmap string member) (t : ty) : Prop :=
  ∃ mt, members t = Some mt ∧ mb ⊆ mt.

(** ** Where the outcome of a lazy query goes *)

(** The user of the bundle [t] is handed a value of type [T] through
    the member [k]: the member is a function that can be called with a
    [T]. *)
Definition handed_to (t : ty) (k : string) (T : ty) : Prop :=
  ∃ p f ret, member_at t k = Some (Member p f) ∧ callable f [T] ret.


(** * Properties *)

(** Closed lookups are settled by evaluation. *)
Ltac evaluate := vm_compute; reflexivity.

(** ** The type-level operators *)

Lemma member_at_TObj ms k : member_at (TObj ms) k = ms !! k.
Proof. done. Qed.

Lemma member_at_TExtends base own k :
  member_at (TExtends base own) k =
  ms ← members base; own !! k ∪ ms !! k.
Proof.
  unfold member_at; simpl. destruct (members base) as [ms|]; simpl; [|done].
  apply lookup_union.
Qed.

Lemma member_at_TOmit src ks k :
  member_at (TOmit src ks) k =
  if decide (k ∈ ks) then None else member_at src k.
Proof.
  unfold member_at; simpl. destruct (members src) as [ms|]; simpl.
  - rewrite map_lookup_filter. destruct (ms !! k) as [m|]; simpl.
    + case_decide; [by rewrite option_guard_False; [|tauto]
                   |by rewrite option_guard_True].
    + by case_decide.
  - by case_decide.
Qed.

(** [keyof] of an extension, of [Omit], of an intersection and of a
    [Pick] out of a named type. *)
Lemma keys_TExtends base own :
  keys (TExtends base own) = (λ ks, dom own ∪ ks) <$> keys base.
Proof.
  unfold keys; simpl. destruct (members base) as [ms|]; simpl; [|done].
  by rewrite dom_union_L.
Qed.

Lemma keys_TOmit src ks :
  keys (TOmit src ks) = (λ s, s ∖ list_to_set ks) <$> keys src.
Proof.
  unfold keys; simpl. destruct (members src) as [ms|]; simpl; [|done].
  f_equal. apply dom_filter_L. intros k.
  rewrite elem_of_difference, elem_of_dom, elem_of_list_to_set.
  split.
  - intros [[m Hm] Hk]. by exists m.
  - intros (m & Hm & Hk). split; [by exists m|done].
Qed.


Lemma keys_TPick_named name args ks :
  keys (TPick (TRef name args) ks) = Some (list_to_set ks).
Proof.
  unfold keys; simpl. f_equal. unfold picked.
  rewrite dom_list_to_map_L. f_equal.
  rewrite <-list_fmap_compose. apply list_fmap_id.
Qed.

(** Extending a base leaves every inherited member the extension does
    not redeclare as it is. *)
Lemma member_at_inherited base own k :
  own !! k = None →
  member_at (TExtends base own) k = member_at base k.
Proof.
  intros Hown. rewrite member_at_TExtends. unfold member_at.
  destruct (members base) as [ms|]; simpl; [|done].
  rewrite Hown. by destruct (ms !! k).
Qed.

(** Omitting keys from the base of an extension that does not redeclare
    them removes exactly these keys. *)
Lemma member_at_extends_omit base own ks k :
  Forall (λ k', own !! k' = None) ks →
  member_at (TExtends (TOmit base ks) own) k =
  if decide (k ∈ ks) then None else member_at (TExtends base own) k.
Proof.
  intros Hown. rewrite !member_at_TExtends. simpl.
  destruct (members base) as [ms|]; simpl; [|by case_decide].
  rewrite map_lookup_filter. case_decide as Hk.
  - rewrite Forall_forall in Hown. rewrite (Hown _ Hk).
    destruct (ms !! k) as [m|]; simpl; [|done].
    rewrite option_guard_False; [done|]. simpl. tauto.
  - destruct (ms !! k) as [m|]; simpl; [|done].
    by rewrite option_guard_True.
Qed.

Lemma accepts_nothing_optional name T :
  accepts [Param name OptionalParam T] [].
Proof. done. Qed.

Lemma accepts_one_optional name T :
  accepts [Param name OptionalParam T] [T].
Proof. split; [constructor|done]. Qed.

Lemma callable_ret f args ret ret' :
  callable f args ret → fun_ret f = Some ret' → ret' = ret.
Proof. intros (ps & -> & _); simpl. congruence. Qed.

(** ** Tuples of a trigger and a snapshot *)

(** C1. [MutationTuple] is a pair.  Its first component is a function
    of one optional parameter [options] of the record type
    [MutationFunctionOptions<TData, TVariables>], callable with and
    without it, whose result is [Promise<ExecutionResult<TData>>]; its
    second component is [MutationResult<TData>].  [MutationFunction]
    has the same parameter list and returns
    [Promise<FetchResult<TData>>]. *)
Theorem MutationTuple_shape (TData TVariables : ty) :
  ∃ f,
    trigger_of (MutationTuple TData TVariables) = Some f ∧
    snapshot_of (MutationTuple TData TVariables) =
      Some (MutationResult TData) ∧
    fun_tparams f = Some [] ∧
    fun_params f =
      Some [Param "options" OptionalParam
              (MutationFunctionOptions TData TVariables)] ∧
    is_Some (members (MutationFunctionOptions TData TVariables)) ∧
    fun_ret f = Some (Promise (ExecutionResult TData)) ∧
    callable f [] (Promise (ExecutionResult TData)) ∧
    callable f [MutationFunctionOptions TData TVariables]
      (Promise (ExecutionResult TData)) ∧
    fun_tparams (MutationFunction TData TVariables) = fun_tparams f ∧
    fun_params (MutationFunction TData TVariables) = fun_params f ∧
    fun_ret (MutationFunction TData TVariables) =
      Some (Promise (FetchResult TData)).
Proof.
  eexists. split; [reflexivity|]. repeat split; try done.
  - eexists. split; [done|]. apply accepts_nothing_optional.
  - eexists. split; [done|]. apply accepts_one_optional.
Qed.



(** ** Result snapshots *)

(** C2. [QueryResult<TData, TVariables>] has the required members
    [data: TData | undefined], [loading: boolean],
    [networkStatus: NetworkStatus] and [called: boolean], and the
    optional member [error?: ApolloError]. *)
Theorem QueryResult_fields (TData TVariables : ty) :
  member_at (QueryResult TData TVariables) "data" =
    Some (Member Required (TUnion TData TUndefined)) ∧
  TUndefined ∈ alternatives (TUnion TData TUndefined) ∧
  member_at (QueryResult TData TVariables) "error" =
    Some (Member Optional ApolloError) ∧
  member_at (QueryResult TData TVariables) "loading" =
    Some (Member Required TBoolean) ∧
  member_at (QueryResult TData TVariables) "networkStatus" =
    Some (Member Required NetworkStatus) ∧
  member_at (QueryResult TData TVariables) "called" =
    Some (Member Required TBoolean).
Proof.
  repeat split; try evaluate.
  simpl. apply elem_of_app. right. constructor.
Qed.

(** C4. The member [fetchMore] of [QueryResult<TData, TVariables>] is
    required and has two call signatures.  The first is generic in
    [K extends keyof TVariables] only; its options are
    [FetchMoreQueryOptions<TVariables, K> & FetchMoreOptions<TData,
    TVariables>] and it returns [Promise<ApolloQueryResult<TData>>].
    The second binds type parameters [TData2] and [TVariables2] of its
    own (and [K extends keyof TVariables2]); its options are
    [{ query?: DocumentNode } & FetchMoreQueryOptions<TVariables2, K> &
    FetchMoreOptions<TData2, TVariables2>] and it returns
    [Promise<ApolloQueryResult<TData2>>]. *)
Theorem fetchMore_two_call_shapes (TData TVariables : ty) :
  ∃ f same cross o1 o2 q,
    member_at (QueryResult TData TVariables) "fetchMore" =
      Some (Member Required f) ∧
    parts f = [same; cross] ∧
    (* the call over the binding's own types *)
    fun_tparams same = Some [TParam "K" (Some (TKeyof TVariables))] ∧
    fun_params same = Some [Param "fetchMoreOptions" Positional o1] ∧
    parts o1 = [FetchMoreQueryOptions TVariables (TVar "K");
                FetchMoreOptions TData TVariables] ∧
    fun_ret same = Some (Promise (ApolloQueryResult TData)) ∧
    (* the call over types of its own *)
    fun_tparams cross =
      Some [TParam "TData2" None; TParam "TVariables2" None;
            TParam "K" (Some (TKeyof (TVar "TVariables2")))] ∧
    fun_params cross = Some [Param "fetchMoreOptions" Positional o2] ∧
    parts o2 = [q;
                FetchMoreQueryOptions (TVar "TVariables2") (TVar "K");
                FetchMoreOptions (TVar "TData2") (TVar "TVariables2")] ∧
    keys q = Some {["query"]} ∧
    member_at q "query" = Some (Member Optional DocumentNode) ∧
    fun_ret cross = Some (Promise (ApolloQueryResult (TVar "TData2"))).
Proof.
  exists (TInter (fetchMore_same TData TVariables) fetchMore_cross),
    (fetchMore_same TData TVariables), fetchMore_cross.
  eexists _, _, _. split; [evaluate|]. split; [done|].
  repeat split; reflexivity.
Qed.

(** C5. [SubscriptionResult<TData>] has the three members
    [loading: boolean], [data?: TData] and [error?: ApolloError] and no
    other.  None of the imperative controls of a query is among them,
    neither [refetch] nor [fetchMore], and no key of
    [ObservableQueryFields]; [QueryResult] has every one of the
    controls. *)
Theorem SubscriptionResult_exact (TData TData' TVariables' : ty) :
  keys (SubscriptionResult TData) = Some {[ "loading"; "data"; "error" ]} ∧
  member_at (SubscriptionResult TData) "loading" =
    Some (Member Required TBoolean) ∧
  member_at (SubscriptionResult TData) "data" =
    Some (Member Optional TData) ∧
  member_at (SubscriptionResult TData) "error" =
    Some (Member Optional ApolloError) ∧
  lacks (SubscriptionResult TData) "refetch" = true ∧
  lacks (SubscriptionResult TData) "fetchMore" = true ∧
  forallb (lacks (SubscriptionResult TData)) imperative_controls = true ∧
  forallb (has (QueryResult TData' TVariables')) imperative_controls = true ∧
  (∃ ks cs,
     keys (SubscriptionResult TData) = Some ks ∧
     keys (ObservableQueryFields TData' TVariables') = Some cs ∧
     ks ## cs).
Proof.
  repeat split; try evaluate.
  eexists _, _. repeat split; [reflexivity..|].
  refine (bool_decide_unpack _ _). vm_compute. exact I.
Qed.

(** ** Mutation options *)

(** C6. In [BaseMutationOptions], and so in [MutationHookOptions] and
    [MutationOptions], the optional member [optimisticResponse] has the
    type [TData | ((vars: TVariables) => TData)]; in
    [MutationFunctionOptions] it has the type
    [TData | ((vars: TVariables | {}) => TData)].  Either way it is a
    union of [TData] and one function type, and the function can be
    called with the variables and returns [TData]. *)
Theorem optimisticResponse_shape (TData TVariables : ty) :
  ∃ f1 f2,
    member_at (BaseMutationOptions TData TVariables) "optimisticResponse" =
      Some (Member Optional (TUnion TData f1)) ∧
    member_at (MutationHookOptions TData TVariables) "optimisticResponse" =
      Some (Member Optional (TUnion TData f1)) ∧
    member_at (MutationOptions TData TVariables) "optimisticResponse" =
      Some (Member Optional (TUnion TData f1)) ∧
    member_at (MutationFunctionOptions TData TVariables) "optimisticResponse" =
      Some (Member Optional (TUnion TData f2)) ∧
    fun_tparams f1 = Some [] ∧
    fun_params f1 = Some [Param "vars" Positional TVariables] ∧
    fun_ret f1 = Some TData ∧
    callable f1 [TVariables] TData ∧
    fun_tparams f2 = Some [] ∧
    fun_params f2 =
      Some [Param "vars" Positional (TUnion TVariables (TObj ∅))] ∧
    fun_ret f2 = Some TData ∧
    callable f2 [TVariables] TData.
Proof.
  eexists _, _. split; [evaluate|]. repeat split; try reflexivity.
  - eexists. split; [done|]. split; [constructor|done].
  - eexists. split; [done|].
    split; [apply assignable_union_l; constructor|done].
Qed.

(** C7. In every mutation options bundle the optional member
    [refetchQueries] has the type
    [Array<string | PureQueryOptions> | RefetchQueriesFunction]: an
    array whose elements are strings or [PureQueryOptions], or a
    function returning such an array.  The function takes any
    arguments ([...args: any[]]), so it can be called with the result
    of the mutation. *)
Theorem refetchQueries_shape (TData TVariables : ty) :
  ∃ descriptor,
    alternatives descriptor = [TString; PureQueryOptions] ∧
    member_at (BaseMutationOptions TData TVariables) "refetchQueries" =
      Some (Member Optional
              (TUnion (TArray descriptor) RefetchQueriesFunction)) ∧
    member_at (MutationHookOptions TData TVariables) "refetchQueries" =
      Some (Member Optional
              (TUnion (TArray descriptor) RefetchQueriesFunction)) ∧
    member_at (MutationOptions TData TVariables) "refetchQueries" =
      Some (Member Optional
              (TUnion (TArray descriptor) RefetchQueriesFunction)) ∧
    member_at (MutationFunctionOptions TData TVariables) "refetchQueries" =
      Some (Member Optional
              (TUnion (TArray descriptor) RefetchQueriesFunction)) ∧
    fun_params RefetchQueriesFunction =
      Some [Param "args" RestParam (TArray TAny)] ∧
    fun_ret RefetchQueriesFunction = Some (TArray descriptor) ∧
    callable RefetchQueriesFunction [ExecutionResult TData]
      (TArray descriptor) ∧
    callable RefetchQueriesFunction [FetchResult TData] (TArray descriptor).
Proof.
  exists (TUnion TString PureQueryOptions). split; [done|].
  repeat split; try evaluate.
  - eexists. split; [done|]. simpl. repeat constructor.
  - eexists. split; [done|]. simpl. repeat constructor.
Qed.

(** ** Configuration keys *)

(** C8. There are sixteen recognized configuration keys, those of the
    three bindings together.  Each of the eight keys of the query
    binding is an optional member of [QueryFunctionOptions], and of
    [QueryOptions] and [QueryHookOptions]; each of the eight keys of the
    mutation binding is an optional member of [BaseMutationOptions],
    and of [MutationHookOptions] and [MutationOptions]; each of the four
    keys of the subscription binding is an optional member of
    [BaseSubscriptionOptions], and of [SubscriptionHookOptions] and
    [SubscriptionOptions].  So every one of the sixteen is an option of
    at least one bundle. *)
Theorem configuration_keys_present (TData TVariables : ty) :
  length configuration_keys = 16 ∧
  NoDup configuration_keys ∧
  (list_to_set configuration_keys : gset string) =
    list_to_set (query_keys ++ mutation_keys ++ subscription_keys) ∧
  forallb (is_option (QueryFunctionOptions TData TVariables))
    query_keys = true ∧
  forallb (is_option (QueryOptions TData TVariables)) query_keys = true ∧
  forallb (is_option (QueryHookOptions TData TVariables)) query_keys = true ∧
  forallb (is_option (BaseMutationOptions TData TVariables))
    mutation_keys = true ∧
  forallb (is_option (MutationHookOptions TData TVariables))
    mutation_keys = true ∧
  forallb (is_option (MutationOptions TData TVariables))
    mutation_keys = true ∧
  forallb (is_option (BaseSubscriptionOptions TData TVariables))
    subscription_keys = true ∧
  forallb (is_option (SubscriptionHookOptions TData TVariables))
    subscription_keys = true ∧
  forallb (is_option (SubscriptionOptions TData TVariables))
    subscription_keys = true ∧
  forallb
    (λ k, existsb (λ t, is_option t k)
            [QueryFunctionOptions TData TVariables;
             BaseMutationOptions TData TVariables;
             BaseSubscriptionOptions TData TVariables])
    configuration_keys = true.
Proof.
  split; [done|]. split; [by refine (bool_decide_unpack _ _)|].
  split; [by refine (bool_decide_unpack _ _); vm_compute|].
  repeat split; evaluate.
Qed.

(** C9. [LazyQueryHookOptions] has no member [skip], while [skip] is an
    optional boolean member of [QueryFunctionOptions], [QueryOptions]
    and [QueryHookOptions].  Apart from [skip] the lazy bundle has
    exactly the members of [QueryHookOptions]: all the other query keys
    stay options of it. *)
Theorem LazyQueryHookOptions_excludes_skip (TData TVariables : ty) :
  lacks (LazyQueryHookOptions TData TVariables) "skip" = true ∧
  member_at (QueryFunctionOptions TData TVariables) "skip" =
    Some (Member Optional TBoolean) ∧
  member_at (QueryOptions TData TVariables) "skip" =
    Some (Member Optional TBoolean) ∧
  member_at (QueryHookOptions TData TVariables) "skip" =
    Some (Member Optional TBoolean) ∧
  (∀ k,
     member_at (LazyQueryHookOptions TData TVariables) k =
     if decide (k = "skip") then None
     else member_at (QueryHookOptions TData TVariables) k) ∧
  forallb (is_option (LazyQueryHookOptions TData TVariables))
    (filter (λ k, k ≠ "skip") query_keys) = true.
Proof.
  repeat split; try evaluate.
  intros k. unfold LazyQueryHookOptions, QueryHookOptions.
  rewrite member_at_extends_omit; [|by repeat constructor].
  destruct (decide (k ∈ ["skip"])) as [Hin|Hin],
    (decide (k = "skip")) as [Heq|Hne]; try done.
  - by apply list_elem_of_singleton in Hin.
  - by rewrite list_elem_of_singleton in Hin.
Qed.

(** ** Relations between the declared shapes *)

(** A property of every member of an interface body holds of whatever a
    lookup in the body finds. *)
Lemma body_lookup_Forall (P : string → member → Prop) l k m :
  Forall (λ km, P km.1 km.2) l → body l !! k = Some m → P k m.
Proof.
  intros HP Hk. apply elem_of_list_to_map_2 in Hk.
  rewrite Forall_forall in HP. exact (HP _ Hk).
Qed.

(** Every member of the body is a member of [mt], as it is. *)
Lemma body_subseteq l (mt : gmap string member) :
  Forall (λ km, mt !! km.1 = Some km.2) l → body l ⊆ mt.
Proof.
  intros Hl. apply map_subseteq_spec. intros k m Hk.
  exact (body_lookup_Forall (λ k m, mt !! k = Some m) l k m Hl Hk).
Qed.

(** Settles the members of a body one by one. *)
Ltac each_member :=
  repeat (apply List.Forall_cons; [evaluate|]); apply List.Forall_nil.

(** Settles a decidable statement about key sets by evaluation. *)
Ltac decide_keys := refine (bool_decide_unpack _ _); vm_compute; exact I.

(** X1. Every member of [SubscriptionResult<TData>] is a member of
    [MutationResult<TData>] with the same modifier and type;
    [MutationResult] has two keys more, [called] and [client]. *)
Theorem SubscriptionResult_within_MutationResult (TData : ty) :
  ∃ ms mm,
    members (SubscriptionResult TData) = Some ms ∧
    members (MutationResult TData) = Some mm ∧
    ms ⊆ mm ∧
    dom mm ∖ dom ms = {[ "called"; "client" ]}.
Proof.
  eexists _, _. split; [reflexivity|]. split; [reflexivity|]. split.
  - apply body_subseteq. each_member.
  - decide_keys.
Qed.

(** A key that is none of the keys of a body is not found in it. *)
Lemma body_lookup_None l k : k ∉ l.*1 → body l !! k = None.
Proof. apply not_elem_of_list_to_map_1. Qed.

(** Two extensions of one base agree at every key their own bodies
    agree at. *)
Lemma member_at_same_base base own1 own2 k :
  own1 !! k = own2 !! k →
  member_at (TExtends base own1) k = member_at (TExtends base own2) k.
Proof. intros Hk. rewrite !member_at_TExtends. by rewrite Hk. Qed.

(** Settles that a key differing from each key of a list is not in it. *)
Ltac not_listed :=
  simpl; rewrite ?not_elem_of_cons; repeat split; auto using not_elem_of_nil.

(** X2. [QueryResult] has every key of [MutationResult] and eight
    more: [networkStatus] and what it takes from
    [ObservableQueryFields].  The members [error], [loading] and
    [called] are the same in both.  [data] and [client] are required in
    [QueryResult] ([data: TData | undefined], [client:
    ApolloClient<any>]) and optional in [MutationResult] ([data?:
    TData], [client?: ApolloClient<object>]). *)
Theorem QueryResult_versus_MutationResult (TData TVariables : ty) :
  ∃ kq km,
    keys (QueryResult TData TVariables) = Some kq ∧
    keys (MutationResult TData) = Some km ∧
    km ⊆ kq ∧
    kq ∖ km = {[ "networkStatus"; "startPolling"; "stopPolling";
                 "subscribeToMore"; "updateQuery"; "refetch"; "variables";
                 "fetchMore" ]} ∧
    Forall (λ k, member_at (QueryResult TData TVariables) k =
                 member_at (MutationResult TData) k)
      ["error"; "loading"; "called"] ∧
    member_at (QueryResult TData TVariables) "data" =
      Some (Member Required (TUnion TData TUndefined)) ∧
    member_at (MutationResult TData) "data" = Some (Member Optional TData) ∧
    member_at (QueryResult TData TVariables) "client" =
      Some (Member Required (ApolloClient TAny)) ∧
    member_at (MutationResult TData) "client" =
      Some (Member Optional (ApolloClient TObjectKw)) ∧
    required_keys (MutationResult TData) = Some {[ "loading"; "called" ]}.
Proof.
  eexists _, _. split; [reflexivity|]. split; [reflexivity|].
  split; [decide_keys|]. split; [decide_keys|].
  split; [each_member|]. repeat split; evaluate.
Qed.

(** X3. What the trigger of a mutation resolves to and the snapshot it
    is paired with name the errors differently.  [ExecutionResult] has
    [errors?: GraphQLError[]] and no key [error]; [MutationResult] has
    [error?: ApolloError] and no key [errors].  The only key they share
    is [data], with the same member [data?: TData].  No member of
    [ExecutionResult] is required. *)
Theorem ExecutionResult_versus_MutationResult (TData TVariables : ty) :
  ∃ f r ke km,
    trigger_of (MutationTuple TData TVariables) = Some f ∧
    fun_ret f = Some (Promise (ExecutionResult TData)) ∧
    snapshot_of (MutationTuple TData TVariables) = Some r ∧
    keys (ExecutionResult TData) = Some ke ∧
    keys r = Some km ∧
    ke ∩ km = {[ "data" ]} ∧
    member_at (ExecutionResult TData) "data" = member_at r "data" ∧
    member_at (ExecutionResult TData) "errors" =
      Some (Member Optional (TArray GraphQLError)) ∧
    lacks (ExecutionResult TData) "error" = true ∧
    member_at r "error" = Some (Member Optional ApolloError) ∧
    lacks r "errors" = true ∧
    required_keys (ExecutionResult TData) = Some ∅.
Proof.
  eexists _, _, _, _. do 5 (split; [reflexivity|]).
  split; [decide_keys|]. repeat split; evaluate.
Qed.

(** ** Required and optional members of the options bundles *)

(** X4. No member of the options of a hook, of the options of a call of
    a trigger, or of a base bundle is required: the object without
    members has each of these types. *)
Theorem hook_options_all_optional (TData TVariables : ty) :
  Forall (λ t, required_keys t = Some ∅)
    [BaseQueryOptions TVariables;
     QueryFunctionOptions TData TVariables;
     QueryHookOptions TData TVariables;
     LazyQueryHookOptions TData TVariables;
     QueryLazyOptions TVariables;
     BaseMutationOptions TData TVariables;
     MutationFunctionOptions TData TVariables;
     MutationHookOptions TData TVariables;
     BaseSubscriptionOptions TData TVariables;
     SubscriptionHookOptions TData TVariables].
Proof. each_member. Qed.

(** X5. The options of the query component differ from the options of
    the query hook at two keys only: [query] is required ([query:
    DocumentNode]) where the hook has [query?: DocumentNode], and
    [children?] is a function from the [QueryResult] to a [ReactNode],
    which the hook lacks.  [query] is the only required key. *)
Theorem QueryOptions_versus_QueryHookOptions (TData TVariables : ty) :
  (∀ k,
     member_at (QueryOptions TData TVariables) k =
     if decide (k = "query") then Some (Member Required DocumentNode)
     else if decide (k = "children") then
       Some (Member Optional
               (TFun [] [Param "result" Positional
                           (QueryResult TData TVariables)] ReactNode))
     else member_at (QueryHookOptions TData TVariables) k) ∧
  member_at (QueryHookOptions TData TVariables) "query" =
    Some (Member Optional DocumentNode) ∧
  lacks (QueryHookOptions TData TVariables) "children" = true ∧
  required_keys (QueryOptions TData TVariables) = Some {[ "query" ]}.
Proof.
  repeat split; try evaluate. intros k.
  destruct (decide (k = "query")) as [->|Hq]; [evaluate|].
  destruct (decide (k = "children")) as [->|Hc]; [evaluate|].
  apply member_at_same_base.
  rewrite !body_lookup_None; [done|not_listed..].
Qed.

(** X6. The options of the mutation component differ from the options
    of the mutation hook at one key only: [mutation] is required where
    the hook has [mutation?: DocumentNode].  It is the only required
    key. *)
Theorem MutationOptions_versus_MutationHookOptions (TData TVariables : ty) :
  (∀ k,
     member_at (MutationOptions TData TVariables) k =
     if decide (k = "mutation") then Some (Member Required DocumentNode)
     else member_at (MutationHookOptions TData TVariables) k) ∧
  member_at (MutationHookOptions TData TVariables) "mutation" =
    Some (Member Optional DocumentNode) ∧
  required_keys (MutationOptions TData TVariables) = Some {[ "mutation" ]}.
Proof.
  repeat split; try evaluate. intros k.
  destruct (decide (k = "mutation")) as [->|Hm]; [evaluate|].
  apply member_at_same_base.
  rewrite !body_lookup_None; [done|not_listed..].
Qed.

(** X7. The options of the subscription component differ from the
    options of the subscription hook at two keys only: [subscription]
    is required where the hook has [subscription?: DocumentNode], and
    [children?] is [null] or a function from the [SubscriptionResult]
    to [JSX.Element | null], which the hook lacks.  [subscription] is
    the only required key. *)
Theorem SubscriptionOptions_versus_SubscriptionHookOptions
    (TData TVariables : ty) :
  (∀ k,
     member_at (SubscriptionOptions TData TVariables) k =
     if decide (k = "subscription") then Some (Member Required DocumentNode)
     else if decide (k = "children") then
       Some (Member Optional
               (TUnion TNull
                  (TFun [] [Param "result" Positional
                              (SubscriptionResult TData)]
                        (TUnion JSX_Element TNull))))
     else member_at (SubscriptionHookOptions TData TVariables) k) ∧
  member_at (SubscriptionHookOptions TData TVariables) "subscription" =
    Some (Member Optional DocumentNode) ∧
  lacks (SubscriptionHookOptions TData TVariables) "children" = true ∧
  required_keys (SubscriptionOptions TData TVariables) =
    Some {[ "subscription" ]}.
Proof.
  repeat split; try evaluate. intros k.
  destruct (decide (k = "subscription")) as [->|Hs]; [evaluate|].
  destruct (decide (k = "children")) as [->|Hc]; [evaluate|].
  apply member_at_same_base.
  rewrite !body_lookup_None; [done|not_listed..].
Qed.

(** ** Inheritance *)

(** Settles that a type includes the members of a body, or of a body
    that extends a body. *)
Ltac includes_body :=
  eexists; split; [reflexivity|]; apply body_subseteq; each_member.

Ltac includes_union :=
  eexists; split; [reflexivity|];
  apply map_union_least; apply body_subseteq; each_member.

(** X8. Every member of [BaseQueryOptions] is a member, with the same
    modifier and type, of [QueryFunctionOptions], [QueryOptions],
    [QueryHookOptions] and [LazyQueryHookOptions]: no extension
    redeclares or drops one.  The four members [QueryFunctionOptions]
    adds are members of [QueryOptions] and [QueryHookOptions] as
    well. *)
Theorem query_options_inherited (TData TVariables : ty) :
  ∃ mb mf,
    members (BaseQueryOptions TVariables) = Some mb ∧
    members (QueryFunctionOptions TData TVariables) = Some mf ∧
    Forall (includes mb)
      [QueryFunctionOptions TData TVariables;
       QueryOptions TData TVariables;
       QueryHookOptions TData TVariables;
       LazyQueryHookOptions TData TVariables] ∧
    dom mf ∖ dom mb =
      {[ "displayName"; "skip"; "onCompleted"; "onError" ]} ∧
    Forall (includes mf)
      [QueryOptions TData TVariables; QueryHookOptions TData TVariables].
Proof.
  eexists _, _. split; [reflexivity|]. split; [reflexivity|].
  split; [repeat (apply List.Forall_cons; [includes_body|]); constructor|].
  split; [decide_keys|].
  repeat (apply List.Forall_cons; [includes_union|]); constructor.
Qed.

(** X9. Every member of [BaseMutationOptions] is a member, with the same
    modifier and type, of [MutationHookOptions] and [MutationOptions];
    every member of [BaseSubscriptionOptions] is one of
    [SubscriptionHookOptions] and [SubscriptionOptions]. *)
Theorem mutation_and_subscription_options_inherited (TData TVariables : ty) :
  ∃ mm ms,
    members (BaseMutationOptions TData TVariables) = Some mm ∧
    Forall (includes mm)
      [MutationHookOptions TData TVariables;
       MutationOptions TData TVariables] ∧
    members (BaseSubscriptionOptions TData TVariables) = Some ms ∧
    Forall (includes ms)
      [SubscriptionHookOptions TData TVariables;
       SubscriptionOptions TData TVariables].
Proof.
  eexists _, _. split; [reflexivity|].
  split; [repeat (apply List.Forall_cons; [includes_body|]); constructor|].
  split; [reflexivity|].
  repeat (apply List.Forall_cons; [includes_body|]); constructor.
Qed.

(** ** Options of a call and options of a hook *)

(** X10. The options of one call of a mutation trigger are a part of
    the options of the mutation itself: every key of
    [MutationFunctionOptions] is a key of [BaseMutationOptions], and
    apart from [optimisticResponse] every member is the same in both.
    Six keys of [BaseMutationOptions] cannot be given at a call:
    [errorPolicy], [client], [notifyOnNetworkStatusChange],
    [onCompleted], [onError] and [ignoreResults]. *)
Theorem MutationFunctionOptions_within_BaseMutationOptions
    (TData TVariables : ty) :
  ∃ mf mb,
    members (MutationFunctionOptions TData TVariables) = Some mf ∧
    members (BaseMutationOptions TData TVariables) = Some mb ∧
    dom mf ⊆ dom mb ∧
    dom mb ∖ dom mf =
      {[ "errorPolicy"; "client"; "notifyOnNetworkStatusChange";
         "onCompleted"; "onError"; "ignoreResults" ]} ∧
    delete "optimisticResponse" mf ⊆ mb.
Proof.
  eexists _, _. split; [reflexivity|]. split; [reflexivity|].
  split; [decide_keys|]. split; [decide_keys|].
  apply map_subseteq_spec. intros k m.
  rewrite lookup_delete_Some. intros [Hne Hk]. revert Hne.
  refine (body_lookup_Forall
            (λ k m, "optimisticResponse" ≠ k → _ !! k = Some m) _ k m _ Hk).
  repeat (apply List.Forall_cons; [intros Hne; first [done|evaluate]|]).
  constructor.
Qed.

(** X11. The options of one call of a lazy query trigger,
    [QueryLazyOptions], are [variables?] and [context?] and no other;
    both are members, with the same modifier and type, of
    [BaseQueryOptions] and so of the options of the lazy hook. *)
Theorem QueryLazyOptions_within_query_options (TData TVariables : ty) :
  ∃ f ml,
    trigger_of (QueryTuple TData TVariables) = Some f ∧
    fun_params f =
      Some [Param "options" OptionalParam (QueryLazyOptions TVariables)] ∧
    members (QueryLazyOptions TVariables) = Some ml ∧
    dom ml = {[ "variables"; "context" ]} ∧
    Forall (includes ml)
      [BaseQueryOptions TVariables;
       LazyQueryHookOptions TData TVariables;
       QueryHookOptions TData TVariables].
Proof.
  eexists _, _. do 3 (split; [reflexivity|]). split; [decide_keys|].
  repeat (apply List.Forall_cons; [includes_body|]); constructor.
Qed.

(** ** Callbacks and shared keys *)

(** X12. [onCompleted] and [onError] are the same optional members in
    the options of a query and of a mutation: [onCompleted] can be
    called with the [TData] and [onError] with an [ApolloError], and
    both return [void].  Neither is a key of the options of a call of a
    trigger or of any subscription bundle. *)
Theorem completion_callbacks (TData TVariables : ty) :
  ∃ c e,
    member_at (QueryFunctionOptions TData TVariables) "onCompleted" =
      Some (Member Optional c) ∧
    member_at (BaseMutationOptions TData TVariables) "onCompleted" =
      Some (Member Optional c) ∧
    member_at (QueryFunctionOptions TData TVariables) "onError" =
      Some (Member Optional e) ∧
    member_at (BaseMutationOptions TData TVariables) "onError" =
      Some (Member Optional e) ∧
    callable c [TData] TVoid ∧
    callable e [ApolloError] TVoid ∧
    forallb (λ t, lacks t "onCompleted" && lacks t "onError")
      [QueryLazyOptions TVariables;
       MutationFunctionOptions TData TVariables;
       BaseSubscriptionOptions TData TVariables;
       SubscriptionHookOptions TData TVariables;
       SubscriptionOptions TData TVariables] = true.
Proof.
  eexists _, _. split; [evaluate|]. split; [evaluate|].
  split; [evaluate|]. split; [evaluate|].
  split; [|split; [|evaluate]].
  - eexists. split; [done|]. split; [constructor|done].
  - eexists. split; [done|]. split; [constructor|done].
Qed.

(** X13. The options of a query, of a mutation and of a subscription
    share three keys: [variables], [fetchPolicy] and [client].
    [variables?: TVariables] is the same in all three.  [fetchPolicy]
    is a [WatchQueryFetchPolicy] for a query and a mutation and a
    [FetchPolicy] for a subscription; [client] is an
    [ApolloClient<any>] for a query and an [ApolloClient<object>] for
    the other two.  A query and a mutation share eight keys, and all
    but [client] are the same member in both. *)
Theorem shared_option_keys (TData TVariables : ty) :
  ∃ kq km ks,
    keys (QueryFunctionOptions TData TVariables) = Some kq ∧
    keys (BaseMutationOptions TData TVariables) = Some km ∧
    keys (BaseSubscriptionOptions TData TVariables) = Some ks ∧
    kq ∩ km ∩ ks = {[ "variables"; "fetchPolicy"; "client" ]} ∧
    kq ∩ km = {[ "variables"; "fetchPolicy"; "errorPolicy"; "client";
                 "notifyOnNetworkStatusChange"; "context"; "onCompleted";
                 "onError" ]} ∧
    Forall (λ k, member_at (QueryFunctionOptions TData TVariables) k =
                 member_at (BaseMutationOptions TData TVariables) k)
      ["variables"; "fetchPolicy"; "errorPolicy";
       "notifyOnNetworkStatusChange"; "context"; "onCompleted"; "onError"] ∧
    member_at (BaseSubscriptionOptions TData TVariables) "variables" =
      member_at (BaseMutationOptions TData TVariables) "variables" ∧
    member_at (BaseMutationOptions TData TVariables) "fetchPolicy" =
      Some (Member Optional WatchQueryFetchPolicy) ∧
    member_at (BaseSubscriptionOptions TData TVariables) "fetchPolicy" =
      Some (Member Optional FetchPolicy) ∧
    member_at (QueryFunctionOptions TData TVariables) "client" =
      Some (Member Optional (ApolloClient TAny)) ∧
    member_at (BaseMutationOptions TData TVariables) "client" =
      Some (Member Optional (ApolloClient TObjectKw)) ∧
    member_at (BaseSubscriptionOptions TData TVariables) "client" =
      Some (Member Optional (ApolloClient TObjectKw)).
Proof.
  eexists _, _, _. do 3 (split; [reflexivity|]).
  split; [decide_keys|]. split; [decide_keys|].
  split; [each_member|]. repeat split; evaluate.
Qed.

(** ** [CommonOptions] *)



(** ** Who receives a snapshot *)



(** ** The controls of a query *)

(** X18. Each of the six members [QueryResult] takes from
    [ObservableQuery] ([startPolling], [stopPolling],
    [subscribeToMore], [updateQuery], [refetch], [variables]) has the
    type it has in [ObservableQuery<TData, TVariables>], at the type
    arguments of the [QueryResult]; the members [QueryResult] declares
    itself redeclare none of them. *)
Theorem QueryResult_controls_of_ObservableQuery (TData TVariables : ty) :
  Forall (λ k, member_at (QueryResult TData TVariables) k =
               Some (Member AsDeclared
                       (TIndex (ObservableQuery TData TVariables) k)))
    ["startPolling"; "stopPolling"; "subscribeToMore"; "updateQuery";
     "refetch"; "variables"] ∧
  (∃ kf kq,
     keys (ObservableQueryFields TData TVariables) = Some kf ∧
     keys (QueryResult TData TVariables) = Some kq ∧
     kf ⊆ kq ∧
     kq ∖ kf = {[ "client"; "data"; "error"; "loading"; "networkStatus";
                  "called" ]}) ∧
  includes
    (body [ "fetchMore" :!
              TInter (fetchMore_same TData TVariables) fetchMore_cross ])
    (QueryResult TData TVariables).
Proof.
  split; [each_member|]. split.
  - eexists _, _. do 2 (split; [reflexivity|]). split; decide_keys.
  - includes_body.
Qed.

(** ** Bookkeeping records *)

(** X19. No member of [QueryPreviousData], [QueryCurrentObservable] and
    [SubscriptionCurrentObservable] is required.  The two observable
    records have the same two keys, [query] and [subscription], and the
    same member [subscription?: ZenObservable.Subscription]; [query] is
    an [ObservableQuery<TData, TVariables>] or [null] for a query and
    an [Observable<any>] for a subscription.  The [result] of
    [QueryPreviousData] is an [ApolloQueryResult<TData>] or [null]. *)
Theorem bookkeeping_records (TData TVariables : ty) :
  Forall (λ t, required_keys t = Some ∅)
    [QueryPreviousData TData TVariables;
     QueryCurrentObservable TData TVariables;
     SubscriptionCurrentObservable] ∧
  keys (QueryCurrentObservable TData TVariables) =
    Some {[ "query"; "subscription" ]} ∧
  keys SubscriptionCurrentObservable = Some {[ "query"; "subscription" ]} ∧
  member_at (QueryCurrentObservable TData TVariables) "subscription" =
    member_at SubscriptionCurrentObservable "subscription" ∧
  (∃ q, member_at (QueryCurrentObservable TData TVariables) "query" =
          Some (Member Optional q) ∧
        alternatives q = [ObservableQuery TData TVariables; TNull]) ∧
  member_at SubscriptionCurrentObservable "query" =
    Some (Member Optional (Observable TAny)) ∧
  (∃ r, member_at (QueryPreviousData TData TVariables) "result" =
          Some (Member Optional r) ∧
        alternatives r = [ApolloQueryResult TData; TNull]).
Proof.
  split; [each_member|]. do 3 (split; [evaluate|]).
  split; [eexists; split; [evaluate|done]|]. split; [evaluate|].
  eexists; split; [evaluate|done].
Qed.

(** ** The outcome of a lazy query *)

(** At [TData = { n: number }] the callbacks of the hook are all that
    stands against [outcome_only_in_snapshot]: the snapshot has the
    data, the trigger returns [void], and no member of the options of
    a call is handed the data. *)
Lemma outcome_not_in_call_options :
  (∃ r, snapshot_of
          (QueryTuple (TObj (body [ "n" :! TNumber ])) OperationVariables) =
          Some r ∧
        is_Some (member_at r "data")) ∧
  (∃ f, trigger_of
          (QueryTuple (TObj (body [ "n" :! TNumber ])) OperationVariables) =
          Some f ∧
        fun_ret f = Some TVoid) ∧
  (∀ k, ¬ handed_to (QueryLazyOptions OperationVariables) k
            (TObj (body [ "n" :! TNumber ]))).
Proof.
  split; [eexists; split; [reflexivity|]; by eexists|].
  split; [by eexists|].
  intros k (p & f & ret & Hk & ps & Hf & _). revert Hf.
  unfold QueryLazyOptions in Hk. rewrite member_at_TObj in Hk.
  refine (body_lookup_Forall
            (λ _ m, m_type m = TFun [] ps ret → False) _ k (Member p f) _ Hk).
  repeat (apply List.Forall_cons; [by intros Hf|]). constructor.
Qed.
